(** * prepare_data.py: the data preparation script of the healthcare dashboard

    A shallow embedding of [src/data/prepare_data.py] and the properties of
    its pipeline stages.  The script is a sequence of functions that print a
    report; every function is embedded as a computation over the standard
    output, with Python's exceptions as an explicit outcome. *)

From Stdlib Require Import String Ascii List ZArith QArith Qabs Lqa Bool Lia.
From Stdlib Require Import DecimalString.
Import ListNotations.
Open Scope string_scope.
Set Warnings "-register-all".

(** ** The fragment of Python the script uses *)

Module Py.

(** Python values: the ones the script builds or returns ([None], strings,
    lists, dictionaries in insertion order) and the cell values of a data set
    (integers, and floats given by the rational they hold). *)
Inductive pyval : Type :=
| PyNone
| PyInt (z : Z)
| PyFloat (q : Q)
| PyStr (s : string)
| PyList (items : list pyval)
| PyDict (entries : list (string * pyval)).

(** The exceptions a subscript, an iteration or a method call can raise.
    [NotModelled] is not a Python exception: it marks an operation on a value
    whose Python behaviour this embedding leaves out (rendering a float or a
    container in an f-string, iterating a string). *)
Inductive exn : Type :=
| KeyError (key : string)
| TypeError (msg : string)
| AttributeError (msg : string)
| NotModelled (what : string).

Inductive outcome (A : Type) : Type :=
| Ok (a : A)
| Raise (e : exn).
Arguments Ok {A} a.
Arguments Raise {A} e.

(** A computation takes the standard output written so far (one entry per
    [print] call, oldest first) and gives its outcome and the output after. *)
Definition IO (A : Type) : Type := list string -> outcome A * list string.

Definition ret {A} (a : A) : IO A := fun out => (Ok a, out).

Definition raise {A} (e : exn) : IO A := fun out => (Raise e, out).

Definition bind {A B} (c : IO A) (k : A -> IO B) : IO B :=
  fun out =>
    match c out with
    | (Ok a, out') => k a out'
    | (Raise e, out') => (Raise e, out')
    end.

(** [print(s)]: one more entry of the standard output (the newline that
    [print] adds after [s] is the entry's end). *)
Definition print (s : string) : IO unit := fun out => (Ok tt, (out ++ [s])%list).

Declare Scope io_scope.
Delimit Scope io_scope with io.
Notation "x <- c ;; k" := (bind c (fun x => k))
  (at level 61, c at next level, right associativity) : io_scope.
Notation "c ;; k" := (bind c (fun _ => k))
  (at level 61, right associativity) : io_scope.
Open Scope io_scope.

(** [for x in items: body(x)] *)
Fixpoint for_each {A} (items : list A) (body : A -> IO unit) : IO unit :=
  match items with
  | [] => ret tt
  | x :: rest => body x ;; for_each rest body
  end.

(** The line feed, and the double quote of the JSON schema text. *)
Definition nl : string := String "010"%char EmptyString.
Definition dq : string := String "034"%char EmptyString.

(** [s * n] on a string. *)
Fixpoint repeat_str (s : string) (n : nat) : string :=
  match n with
  | O => EmptyString
  | S n' => s ++ repeat_str s n'
  end.

(** [s.center(width)] with the space as fill character, for a string of
    ASCII characters: CPython puts [marg / 2 + (marg & width & 1)] spaces on
    the left and the rest on the right, and returns [s] itself when it is
    [width] long or longer. *)
Definition center (s : string) (width : nat) : string :=
  let len := String.length s in
  if (width <=? len)%nat then s
  else
    let marg := (width - len)%nat in
    let left := (marg / 2 + (if Nat.odd marg && Nat.odd width then 1 else 0))%nat in
    repeat_str " " left ++ s ++ repeat_str " " (marg - left).

Fixpoint assoc (key : string) (entries : list (string * pyval)) : option pyval :=
  match entries with
  | [] => None
  | (k, v) :: rest => if String.eqb k key then Some v else assoc key rest
  end.

(** [d[key]] for a string key. *)
Definition getitem (d : pyval) (key : string) : IO pyval :=
  match d with
  | PyDict entries =>
      match assoc key entries with
      | Some v => ret v
      | None => raise (KeyError key)
      end
  | PyNone => raise (TypeError "'NoneType' object is not subscriptable")
  | PyInt _ => raise (TypeError "'int' object is not subscriptable")
  | PyFloat _ => raise (TypeError "'float' object is not subscriptable")
  | PyStr _ => raise (TypeError "string indices must be integers")
  | PyList _ => raise (TypeError "list indices must be integers or slices, not str")
  end.

(** The items a [for] loop over [v] visits. *)
Definition iter (v : pyval) : IO (list pyval) :=
  match v with
  | PyList items => ret items
  | PyDict entries => ret (map (fun kv => PyStr (fst kv)) entries)
  | PyNone => raise (TypeError "'NoneType' object is not iterable")
  | PyInt _ => raise (TypeError "'int' object is not iterable")
  | PyFloat _ => raise (TypeError "'float' object is not iterable")
  | PyStr _ => raise (NotModelled "iteration over the characters of a string")
  end.

(** [d.items()] *)
Definition items (d : pyval) : IO (list (string * pyval)) :=
  match d with
  | PyDict entries => ret entries
  | PyNone => raise (AttributeError "'NoneType' object has no attribute 'items'")
  | PyInt _ => raise (AttributeError "'int' object has no attribute 'items'")
  | PyFloat _ => raise (AttributeError "'float' object has no attribute 'items'")
  | PyStr _ => raise (AttributeError "'str' object has no attribute 'items'")
  | PyList _ => raise (AttributeError "'list' object has no attribute 'items'")
  end.

(** The text an f-string puts for [{v}]: a string as it is, [None] by its
    name, an integer in decimal with a minus sign when negative.  The text
    of a float and of a container is left out of the embedding. *)
Definition format (v : pyval) : IO string :=
  match v with
  | PyStr s => ret s
  | PyNone => ret "None"
  | PyInt z => ret (NilZero.string_of_int (Z.to_int z))
  | PyFloat _ => raise (NotModelled "a float in an f-string")
  | PyList _ => raise (NotModelled "a list in an f-string")
  | PyDict _ => raise (NotModelled "a dictionary in an f-string")
  end.

(** [v == s] for a string literal [s]. *)
Definition eq_str (v : pyval) (s : string) : bool :=
  match v with
  | PyStr t => String.eqb t s
  | _ => false
  end.

End Py.

Import Py.
Open Scope io_scope.

(** ** The script *)

(** The rule of 70 equals signs that frames every step's title. *)
Definition rule : string := repeat_str "=" 70.

(** Step 1: [load_raw_data()] *)

Definition raw_data_schema : pyval :=
  PyDict
    [ ("columns",
       PyList
         [ PyStr "year";
           PyStr "state";
           PyStr "diabetes_percentage";
           PyStr "obesity_percentage";
           PyStr "heart_disease_percentage";
           PyStr "physical_inactivity_percentage";
           PyStr "population";
           PyStr "age_group";
           PyStr "race_ethnicity";
           PyStr "income_level";
           PyStr "sample_size" ]);
      ("expected_rows",
       PyStr "50 states × 10 years × multiple demographic groups");
      ("data_sources",
       PyList
         [ PyStr "CDC BRFSS (https://www.cdc.gov/brfss/)";
           PyStr "CDC NHIS (https://www.cdc.gov/nchs/nhis/)";
           PyStr "U.S. Census Bureau (population estimates)" ]) ].

Definition load_raw_data : IO pyval :=
  print rule ;;
  print "STEP 1: Loading Raw Data" ;;
  print rule ;;
  print (nl ++ "Expected Raw Data Schema:") ;;
  columns <- getitem raw_data_schema "columns" ;;
  cols <- iter columns ;;
  for_each cols (fun col => c <- format col ;; print ("  - " ++ c)) ;;
  print (nl ++ "Data Sources:") ;;
  data_sources <- getitem raw_data_schema "data_sources" ;;
  sources <- iter data_sources ;;
  for_each sources (fun source => s <- format source ;; print ("  - " ++ s)) ;;
  ret raw_data_schema.

(** Step 2: [clean_and_standardize_data(df_raw)] *)

Definition cleaning_operations : list string :=
  [ "✓ Remove duplicate records";
    "✓ Handle missing values (impute or exclude)";
    "✓ Standardize state name formatting";
    "✓ Validate percentage ranges (0-100%)";
    "✓ Ensure population values are positive integers";
    "✓ Round percentages to 1 decimal place";
    "✓ Remove outliers using IQR method";
    "✓ Cross-validate with official CDC figures" ].

Definition clean_and_standardize_data (df_raw : pyval) : IO pyval :=
  print (nl ++ rule) ;;
  print "STEP 2: Data Cleaning and Standardization" ;;
  print rule ;;
  print (nl ++ "Cleaning Operations Applied:") ;;
  for_each cleaning_operations (fun op => print ("  " ++ op)) ;;
  print (nl ++ "Data Quality Metrics:") ;;
  print "  - Completeness: >99% (minimal missing values)" ;;
  print "  - Duplicates removed: Verified unique by (year, state, demographic_group)" ;;
  print "  - Outliers detected: IQR method with 1.5x multiplier" ;;
  print "  - Validation: All values cross-checked against CDC published reports" ;;
  ret PyNone.

(** Step 3: [aggregate_state_level_data(df_cleaned)] *)

Definition aggregation_methods : list string :=
  [ "Mean (arithmetic average) - default for most metrics";
    "Population-weighted average - for national estimates";
    "Median - used for robustness check against outliers";
    "Standard Deviation - measure of variability within state";
    "Min/Max - range of observed values";
    "Mode (most frequent value) - for categorical data" ].

Definition aggregate_state_level_data (df_cleaned : pyval) : IO pyval :=
  print (nl ++ rule) ;;
  print "STEP 3: State-Level Aggregation" ;;
  print rule ;;
  print (nl ++ "Aggregation Methods:") ;;
  for_each aggregation_methods (fun method => print ("  - " ++ method)) ;;
  print (nl ++ "Key Calculations (most recent year):") ;;
  print "  - Total States: 50" ;;
  print "  - Diabetes prevalence range: 8.4% to 14.2%" ;;
  print "  - Obesity prevalence range: 27.5% to 40.8%" ;;
  print "  - Heart disease range: 3.6% to 6.3%" ;;
  print "  - Physical inactivity range: 21.9% to 37.5%" ;;
  ret PyNone.

(** Step 4: [calculate_national_trends(df_cleaned)] *)

Definition calculate_national_trends (df_cleaned : pyval) : IO pyval :=
  print (nl ++ rule) ;;
  print "STEP 4: Time-Series Trend Analysis (2015-2024)" ;;
  print rule ;;
  print (nl ++ "Trend Calculation Methods:") ;;
  print "  - Population-weighted national averages per year" ;;
  print "  - Linear regression slope for long-term trend direction" ;;
  print "  - Year-over-year percent change (YoY % Δ)" ;;
  print "  - Compound Annual Growth Rate (CAGR)" ;;
  print (nl ++ "Projected National Trends:") ;;
  print (nl ++ "  Diabetes Prevalence:") ;;
  print "    2015: 9.4% → 2024: 11.4% (+2.0 percentage points, +21.3% increase)" ;;
  print "    CAGR: 2.1%" ;;
  print (nl ++ "  Obesity Prevalence:") ;;
  print "    2015: 30.2% → 2024: 35.1% (+4.9 percentage points, +16.2% increase)" ;;
  print "    CAGR: 1.8%" ;;
  print (nl ++ "  Heart Disease Prevalence:") ;;
  print "    2015: 3.9% → 2024: 4.8% (+0.9 percentage points, +23.1% increase)" ;;
  print "    CAGR: 2.4%" ;;
  print (nl ++ "  Physical Inactivity:") ;;
  print "    2015: 25.4% → 2024: 29.5% (+4.1 percentage points, +16.1% increase)" ;;
  print "    CAGR: 1.7%" ;;
  ret PyNone.

(** Step 5: [analyze_demographic_disparities(df_cleaned)] *)

Definition analyze_demographic_disparities (df_cleaned : pyval) : IO pyval :=
  print (nl ++ rule) ;;
  print "STEP 5: Demographic Stratification & Health Equity Analysis" ;;
  print rule ;;
  print (nl ++ "Demographic Dimensions Analyzed:") ;;
  print (nl ++ "  Age Groups (6 categories):") ;;
  print "    - 18-24 years" ;;
  print "    - 25-34 years" ;;
  print "    - 35-44 years" ;;
  print "    - 45-54 years" ;;
  print "    - 55-64 years" ;;
  print "    - 65+ years" ;;
  print (nl ++ "  Race/Ethnicity (5 categories):") ;;
  print "    - Non-Hispanic White" ;;
  print "    - Non-Hispanic Black" ;;
  print "    - Hispanic" ;;
  print "    - Asian/Pacific Islander" ;;
  print "    - American Indian/Alaska Native" ;;
  print (nl ++ "  Income Level (5 brackets):") ;;
  print "    - Less than $15,000" ;;
  print "    - $15,000-$24,999" ;;
  print "    - $25,000-$49,999" ;;
  print "    - $50,000-$74,999" ;;
  print "    - $75,000 and above" ;;
  print (nl ++ "Health Equity Insights:") ;;
  print "  - Diabetes: 6.6x higher in lowest vs highest income group (14.2% vs 8.1%)" ;;
  print "  - Age gradient: 6.7x higher in 65+ vs 18-24 (21.3% vs 3.2%)" ;;
  print "  - Racial disparities: 1.9x higher in Native American vs Asian populations" ;;
  print "  - Income-health correlation: R² = 0.78 (strong inverse relationship)" ;;
  ret PyNone.

(** Step 6: [perform_correlation_analysis(df_cleaned)] *)

Definition perform_correlation_analysis (df_cleaned : pyval) : IO pyval :=
  print (nl ++ rule) ;;
  print "STEP 6: Correlation & Risk Factor Analysis" ;;
  print rule ;;
  print (nl ++ "Correlation Analysis Results:") ;;
  print (nl ++ "  Pearson Correlation Coefficients (0-1 scale):") ;;
  print "    - Obesity ↔ Diabetes:         r = 0.87 (strong positive)" ;;
  print "    - Obesity ↔ Heart Disease:   r = 0.84 (strong positive)" ;;
  print "    - Obesity ↔ Inactivity:      r = 0.82 (strong positive)" ;;
  print "    - Diabetes ↔ Heart Disease:  r = 0.91 (very strong positive)" ;;
  print "    - Inactivity ↔ Obesity:      r = 0.80 (strong positive)" ;;
  print (nl ++ "Linear Regression Model (Obesity → Diabetes):") ;;
  print "    Formula: Diabetes% = 1.24 + 0.278 × Obesity%" ;;
  print "    R² = 0.76 (76% of diabetes variation explained by obesity)" ;;
  print "    Interpretation: Each 1% increase in obesity → 0.28% increase in diabetes" ;;
  print (nl ++ "Risk Factor Clustering:") ;;
  print "    - High-Risk States (elevated all metrics): MS, LA, AR, WV, OK" ;;
  print "    - Low-Risk States (all metrics below median): CO, UT, VT, NH, MA" ;;
  print "    - Mixed Profile States: Require targeted interventions" ;;
  ret PyNone.

(** Step 7: [validate_data_quality()] *)

Definition qa_check (status details : string) : pyval :=
  PyDict [ ("status", PyStr status); ("details", PyStr details) ].

Definition qa_checks : pyval :=
  PyDict
    [ ("Completeness",
       qa_check "PASS" "100% of required fields populated for all 50 states");
      ("Range Validation",
       qa_check "PASS" "All percentages 0-100%, all populations > 0");
      ("Temporal Consistency",
       qa_check "PASS" "Trends align with CDC publications and epidemiological patterns");
      ("Geographic Coverage",
       qa_check "PASS" "All 50 states + DC accounted for");
      ("Bounds Checking",
       qa_check "PASS" "All state values within national min-max ranges");
      ("Outlier Detection",
       qa_check "PASS" "No extreme outliers detected; IQR validation applied");
      ("Cross-validation",
       qa_check "PASS" "Spot-checked against CDC BRFSS published data") ].

Definition validate_data_quality : IO pyval :=
  print (nl ++ rule) ;;
  print "STEP 7: Data Validation & Quality Assurance" ;;
  print rule ;;
  print (nl ++ "Quality Assurance Checks:") ;;
  checks <- items qa_checks ;;
  for_each checks (fun '(check_name, result) =>
    status <- getitem result "status" ;;
    let status_symbol := if eq_str status "PASS" then "✓" else "✗" in
    status <- getitem result "status" ;;
    shown <- format status ;;
    print ("  " ++ status_symbol ++ " " ++ check_name ++ ": " ++ shown) ;;
    details <- getitem result "details" ;;
    shown <- format details ;;
    print ("      └─ " ++ shown)) ;;
  ret PyNone.

(** Step 8: [export_to_json()] *)

(** A JSON key or string of the schema text: [s] between double quotes. *)
Definition quoted (s : string) : string := dq ++ s ++ dq.

(** The text of the triple-quoted f-string, line by line (it starts with a
    line feed and ends with the four spaces before the closing quotes). *)
Definition json_schema : string :=
  String.concat nl
    [ EmptyString;
      "  {";
      "    " ++ quoted "states" ++ ": [";
      "      {";
      "        " ++ quoted "name" ++ ": " ++ quoted "State Name" ++ ",";
      "        " ++ quoted "abbr" ++ ": " ++ quoted "ST" ++ ",";
      "        " ++ quoted "diabetes_pct" ++ ": <number>,";
      "        " ++ quoted "obesity_pct" ++ ": <number>,";
      "        " ++ quoted "heart_disease_pct" ++ ": <number>,";
      "        " ++ quoted "inactivity_pct" ++ ": <number>,";
      "        " ++ quoted "population" ++ ": <integer>";
      "      },";
      "      ...";
      "    ],";
      "    " ++ quoted "national_trends" ++ ": {";
      "      " ++ quoted "years" ++ ": [<year>, ...],";
      "      " ++ quoted "diabetes" ++ ": [<pct>, ...],";
      "      " ++ quoted "obesity" ++ ": [<pct>, ...],";
      "      " ++ quoted "heart_disease" ++ ": [<pct>, ...],";
      "      " ++ quoted "inactivity" ++ ": [<pct>, ...]";
      "    },";
      "    " ++ quoted "demographic_breakdown" ++ ": {";
      "      " ++ quoted "age_groups" ++ ": [...],";
      "      " ++ quoted "race_ethnicity" ++ ": [...],";
      "      " ++ quoted "income_level" ++ ": [...]";
      "    }";
      "  }";
      "    " ].

Definition export_to_json : IO pyval :=
  print (nl ++ rule) ;;
  print "STEP 8: Export to JSON Format" ;;
  print rule ;;
  print (nl ++ "JSON Export Configuration:") ;;
  print "  - File format: JSON (UTF-8 encoding)" ;;
  print "  - Structure: Nested objects for optimal web consumption" ;;
  print "  - Compression: Can be gzip'd for web delivery (~15KB compressed)" ;;
  print "  - API compatibility: RESTful JSON schema" ;;
  print (nl ++ "JSON Schema:") ;;
  print json_schema ;;
  ret PyNone.

(** Step 9: [print_execution_summary()].  [today] is the text of
    [datetime.now().strftime('%Y-%m-%d')], the one value the script takes
    from its environment. *)

Definition print_execution_summary (today : string) : IO pyval :=
  print (nl ++ rule) ;;
  print "EXECUTION SUMMARY & PERFORMANCE METRICS" ;;
  print rule ;;
  print (nl ++ "Data Processing Pipeline Performance:") ;;
  print "  Total records processed: ~15,000 (50 states × 10 years × demographics)" ;;
  print "  Processing time: ~0.5 seconds (typical)" ;;
  print "  Data quality score: 98.2%" ;;
  print "  Memory usage: ~45 MB (full pipeline)" ;;
  print (nl ++ "Output Files Generated:") ;;
  print "  ✓ state_health_data.json (35 KB)" ;;
  print "  ✓ data_validation_report.txt (optional)" ;;
  print "  ✓ correlation_matrix.csv (optional)" ;;
  print (nl ++ "Data Lineage & Reproducibility:") ;;
  print "  - Source: CDC BRFSS (Behavioral Risk Factor Surveillance System)" ;;
  print "  - CDC NHIS (National Health Interview Survey)" ;;
  print ("  - Extraction date: " ++ today) ;;
  print "  - Version: 2024 (latest available data)" ;;
  print "  - Reproducible: Yes (Python 3.8+, pandas 1.x, numpy 1.x)" ;;
  ret PyNone.

(** [main()]: the pipeline run.  Every stage is called with [None] for its
    data set, and what the stages return is dropped. *)

Definition main (today : string) : IO pyval :=
  print nl ;;
  print ("╔" ++ repeat_str "═" 68 ++ "╗") ;;
  print ("║" ++ repeat_str " " 68 ++ "║") ;;
  print ("║"
         ++ center "  HEALTHCARE ANALYTICS DASHBOARD - DATA PREPARATION PIPELINE  " 68
         ++ "║") ;;
  print ("║" ++ repeat_str " " 68 ++ "║") ;;
  print ("╚" ++ repeat_str "═" 68 ++ "╝") ;;
  load_raw_data ;;
  clean_and_standardize_data PyNone ;;
  aggregate_state_level_data PyNone ;;
  calculate_national_trends PyNone ;;
  analyze_demographic_disparities PyNone ;;
  perform_correlation_analysis PyNone ;;
  validate_data_quality ;;
  export_to_json ;;
  print_execution_summary today ;;
  print (nl ++ rule) ;;
  print "✓ DATA PREPARATION PIPELINE COMPLETED SUCCESSFULLY" ;;
  print rule ;;
  print (nl ++ "Next Step: Open index.html in a web browser to view the dashboard") ;;
  print (rule ++ nl) ;;
  ret PyNone.

(** ** Data sets, and what a reader of a stage's outcome can observe *)

(** A record of the raw data: the eleven columns of [raw_data_schema], in
    its order. *)
Definition record (year : Z) (state : string)
    (diabetes obesity heart_disease physical_inactivity : Q) (population : Z)
    (age_group race_ethnicity income_level : string) (sample_size : Z) : pyval :=
  PyDict
    [ ("year", PyInt year);
      ("state", PyStr state);
      ("diabetes_percentage", PyFloat diabetes);
      ("obesity_percentage", PyFloat obesity);
      ("heart_disease_percentage", PyFloat heart_disease);
      ("physical_inactivity_percentage", PyFloat physical_inactivity);
      ("population", PyInt population);
      ("age_group", PyStr age_group);
      ("race_ethnicity", PyStr race_ethnicity);
      ("income_level", PyStr income_level);
      ("sample_size", PyInt sample_size) ].

Definition metric_columns : list string :=
  [ "diabetes_percentage"; "obesity_percentage"; "heart_disease_percentage";
    "physical_inactivity_percentage" ].

(** The records a value holds: the items of a list, none for any other
    value ([None] among them). *)
Definition records_of (v : pyval) : list pyval :=
  match v with
  | PyList rows => rows
  | _ => []
  end.

Definition percentage_ok (cell : option pyval) : bool :=
  match cell with
  | Some (PyFloat q) => Qle_bool 0 q && Qle_bool q 100
  | Some (PyInt z) => (0 <=? z)%Z && (z <=? 100)%Z
  | _ => false
  end.

Definition population_ok (cell : option pyval) : bool :=
  match cell with
  | Some (PyInt z) => (0 <? z)%Z
  | _ => false
  end.

(** Every metric percentage of the record lies in [0, 100] and its
    population is positive. *)
Definition record_ok (r : pyval) : bool :=
  match r with
  | PyDict cells =>
      forallb (fun metric => percentage_ok (assoc metric cells)) metric_columns
      && population_ok (assoc "population" cells)
  | _ => false
  end.

(** What a call leaves to whoever reads it: the outcome and the standard
    output. *)
Definition observation : Type := (outcome pyval * list string)%type.

(** [sub] occurs in [s]. *)
Definition occurs (sub s : string) : bool :=
  match String.index 0 sub s with
  | Some _ => true
  | None => false
  end.

(** The entries of the standard output that start with [p]. *)
Definition lines_with_prefix (p : string) (out : list string) : list string :=
  filter (String.prefix p) out.

(** A string, or a list of strings: text, no record. *)
Definition is_text (v : pyval) : bool :=
  match v with
  | PyStr _ => true
  | PyList vs =>
      forallb (fun x => match x with PyStr _ => true | _ => false end) vs
  | _ => false
  end.

(** The entries of a dictionary, none for any other value. *)
Definition entries_of (v : pyval) : list (string * pyval) :=
  match v with
  | PyDict entries => entries
  | _ => []
  end.

(** ** The data sets of the examples *)

(** A group of one state with one value, the same for every metric. *)
Definition single_value_group (state : string) (value : Q) : pyval :=
  PyList
    [ record 2024 state value value value value 1000000
        "45-54" "Hispanic" "$25,000-$49,999" 1200 ].

(** Two states of one year with the same population. *)
Definition equal_population_year (value1 value2 : Q) : pyval :=
  PyList
    [ record 2024 "Alabama" value1 value1 value1 value1 1000000
        "45-54" "Hispanic" "$25,000-$49,999" 1200;
      record 2024 "Alaska" value2 value2 value2 value2 1000000
        "45-54" "Hispanic" "$25,000-$49,999" 1200 ].

(** A national series of three years that starts at 10 and grows by the
    rate [r] each year, one state standing for the nation. *)
Definition growth_series (r : Q) : pyval :=
  PyList
    (map (fun '(year, value) =>
            record year "Alabama" value value value value 1000000
              "45-54" "Hispanic" "$25,000-$49,999" 1200)
       [ (2022%Z, 10); (2023%Z, 10 * (1 + r)); (2024%Z, 10 * (1 + r) * (1 + r)) ]).

(** The tolerance of the round trip, 1e-9. *)
Definition tolerance : Q := 1 # 1000000000.

(** A national series of two years, [prev] in 2023 and [curr] in 2024. *)
Definition two_year_series (prev curr : Q) : pyval :=
  PyList
    [ record 2023 "Alabama" prev prev prev prev 1000000
        "45-54" "Hispanic" "$25,000-$49,999" 1200;
      record 2024 "Alabama" curr curr curr curr 1000000
        "45-54" "Hispanic" "$25,000-$49,999" 1200 ].

(** Three state summaries whose obesity values are 30, 35 and 40 and whose
    diabetes values are [diabetes_of] of them. *)
Definition paired_summaries (diabetes_of : Q -> Q) : pyval :=
  PyList
    (map (fun '(state, obesity) =>
            record 2024 state (diabetes_of obesity) obesity 5 30 1000000
              "45-54" "Hispanic" "$25,000-$49,999" 1200)
       [ ("Alabama", 30); ("Alaska", 35); ("Arizona", 40) ]).

(** ** What each stage prints: the output of a call from an empty standard
    output *)

Definition schema_report : list string :=
  Eval vm_compute in snd (load_raw_data []).
Definition cleaning_report : list string :=
  Eval vm_compute in snd (clean_and_standardize_data PyNone []).
Definition aggregation_report : list string :=
  Eval vm_compute in snd (aggregate_state_level_data PyNone []).
Definition national_trends_report : list string :=
  Eval vm_compute in snd (calculate_national_trends PyNone []).
Definition disparities_report : list string :=
  Eval vm_compute in snd (analyze_demographic_disparities PyNone []).
Definition correlation_report : list string :=
  Eval vm_compute in snd (perform_correlation_analysis PyNone []).
Definition quality_report : list string :=
  Eval vm_compute in snd (validate_data_quality []).
Definition export_report : list string :=
  Eval vm_compute in snd (export_to_json []).

(** ** Reading a stage's result as a data set, and a text as lines *)




(** [s.split("\n")]: the lines of a text. *)
Fixpoint split_lines (s : string) : list string :=
  match s with
  | EmptyString => [ EmptyString ]
  | String c rest =>
      if Ascii.eqb c "010" then EmptyString :: split_lines rest
      else
        match split_lines rest with
        | [] => [ String c EmptyString ]
        | line :: lines => String c line :: lines
        end
  end.

(** The lines of the schema text that open a top-level key: four spaces and
    a double quote. *)
Definition top_level_key_lines (schema : string) : list string :=
  lines_with_prefix ("    " ++ dq) (split_lines schema).

(** ** The parts of the run: the lines of the quality checks, the summary,
    the banner and the closing lines *)

(** A check given by its name, status and details, as an item of a
    dictionary of checks. *)
Definition check_entry (check : string * string * string) : string * pyval :=
  let '(check_name, status, details) := check in
  (check_name, qa_check status details).

(** The line the loop of [validate_data_quality] prints for a check's
    status: the check mark when the status is PASS, the cross otherwise. *)
Definition status_line (check_name status : string) : string :=
  "  " ++ (if String.eqb status "PASS" then "✓" else "✗") ++ " "
  ++ check_name ++ ": " ++ status.

(** The two lines the loop prints for a check: its status, its details. *)
Definition check_lines (check : string * string * string) : list string :=
  let '(check_name, status, details) := check in
  [ status_line check_name status; "      └─ " ++ details ].

(** What [print_execution_summary] prints on the day [today]. *)
Definition summary_report (today : string) : list string :=
  Eval vm_compute in snd (print_execution_summary today []).

(** The boxed title [main] prints before the steps. *)
Definition main_banner : list string :=
  [ nl;
    "╔" ++ repeat_str "═" 68 ++ "╗";
    "║" ++ repeat_str " " 68 ++ "║";
    "║"
    ++ center "  HEALTHCARE ANALYTICS DASHBOARD - DATA PREPARATION PIPELINE  " 68
    ++ "║";
    "║" ++ repeat_str " " 68 ++ "║";
    "╚" ++ repeat_str "═" 68 ++ "╝" ].

(** The lines [main] prints after the steps. *)
Definition main_closing : list string :=
  [ nl ++ rule;
    "✓ DATA PREPARATION PIPELINE COMPLETED SUCCESSFULLY";
    rule;
    nl ++ "Next Step: Open index.html in a web browser to view the dashboard";
    rule ++ nl ].

(** ** The standard output is append-only *)

(** A computation that only adds to the standard output, and whose outcome
    does not depend on what was printed before. *)
Definition appends {A} (c : IO A) : Prop :=
  forall out, c out = (fst (c []), (out ++ snd (c []))%list).

(** ** Lemmas: every step of a computation appends *)

Lemma appends_ret {A} (a : A) : appends (ret a).
Proof. intros out. unfold ret. simpl. now rewrite app_nil_r. Qed.

Lemma appends_raise {A} (e : exn) : appends (@raise A e).
Proof. intros out. unfold raise. simpl. now rewrite app_nil_r. Qed.

Lemma appends_print (s : string) : appends (print s).
Proof. intros out. reflexivity. Qed.

Lemma appends_bind {A B} (c : IO A) (k : A -> IO B) :
  appends c -> (forall a, appends (k a)) -> appends (bind c k).
Proof.
  intros Hc Hk out. unfold bind.
  rewrite (Hc out).
  destruct (c []) as [[a | e] printed]; simpl.
  - rewrite (Hk a (out ++ printed)%list), (Hk a printed).
    simpl. now rewrite app_assoc.
  - reflexivity.
Qed.

Lemma appends_for_each {A} (l : list A) (body : A -> IO unit) :
  (forall x, appends (body x)) -> appends (for_each l body).
Proof.
  intros Hbody. induction l as [| x rest IH]; simpl.
  - apply appends_ret.
  - apply appends_bind; [apply Hbody | intros _; exact IH].
Qed.

Lemma appends_getitem (d : pyval) (key : string) : appends (getitem d key).
Proof.
  destruct d; simpl; try apply appends_raise.
  destruct (assoc key entries); [apply appends_ret | apply appends_raise].
Qed.

Lemma appends_iter (v : pyval) : appends (iter v).
Proof. destruct v; simpl; first [apply appends_ret | apply appends_raise]. Qed.

Lemma appends_items (d : pyval) : appends (items d).
Proof. destruct d; simpl; first [apply appends_ret | apply appends_raise]. Qed.

Lemma appends_format (v : pyval) : appends (format v).
Proof. destruct v; simpl; first [apply appends_ret | apply appends_raise]. Qed.

Create HintDb io.
#[local] Hint Resolve appends_ret appends_raise appends_print appends_getitem
  appends_iter appends_items appends_format : io.

(** Splits a computation into its [bind]s, loops and primitive steps. *)
Ltac frame :=
  repeat first
    [ apply appends_bind
    | apply appends_for_each
    | solve [auto with io]
    | intros [? ?]
    | intro ].

Lemma load_raw_data_appends : appends load_raw_data.
Proof. unfold load_raw_data. frame. Qed.

Lemma clean_and_standardize_data_appends df :
  appends (clean_and_standardize_data df).
Proof. unfold clean_and_standardize_data. frame. Qed.

Lemma aggregate_state_level_data_appends df :
  appends (aggregate_state_level_data df).
Proof. unfold aggregate_state_level_data. frame. Qed.

Lemma calculate_national_trends_appends df :
  appends (calculate_national_trends df).
Proof. unfold calculate_national_trends. frame. Qed.

Lemma analyze_demographic_disparities_appends df :
  appends (analyze_demographic_disparities df).
Proof. unfold analyze_demographic_disparities. frame. Qed.

Lemma perform_correlation_analysis_appends df :
  appends (perform_correlation_analysis df).
Proof. unfold perform_correlation_analysis. frame. Qed.

Lemma validate_data_quality_appends : appends validate_data_quality.
Proof. unfold validate_data_quality. frame. Qed.

Lemma export_to_json_appends : appends export_to_json.
Proof. unfold export_to_json. frame. Qed.

Lemma print_execution_summary_appends today :
  appends (print_execution_summary today).
Proof. unfold print_execution_summary. frame. Qed.

Lemma main_appends today : appends (main today).
Proof.
  unfold main.
  pose proof load_raw_data_appends.
  pose proof clean_and_standardize_data_appends.
  pose proof aggregate_state_level_data_appends.
  pose proof calculate_national_trends_appends.
  pose proof analyze_demographic_disparities_appends.
  pose proof perform_correlation_analysis_appends.
  pose proof validate_data_quality_appends.
  pose proof export_to_json_appends.
  pose proof print_execution_summary_appends.
  repeat first [ solve [auto with io] | apply appends_bind | intro ].
Qed.

(** ** What a call of each function gives, for every argument and every
    standard output before it *)

Lemma load_raw_data_run out :
  load_raw_data out = (Ok raw_data_schema, (out ++ schema_report)%list).
Proof. rewrite (load_raw_data_appends out). reflexivity. Qed.

Lemma clean_and_standardize_data_run df out :
  clean_and_standardize_data df out = (Ok PyNone, (out ++ cleaning_report)%list).
Proof. rewrite (clean_and_standardize_data_appends df out). reflexivity. Qed.

Lemma aggregate_state_level_data_run df out :
  aggregate_state_level_data df out
  = (Ok PyNone, (out ++ aggregation_report)%list).
Proof. rewrite (aggregate_state_level_data_appends df out). reflexivity. Qed.

Lemma calculate_national_trends_run df out :
  calculate_national_trends df out
  = (Ok PyNone, (out ++ national_trends_report)%list).
Proof. rewrite (calculate_national_trends_appends df out). reflexivity. Qed.

Lemma analyze_demographic_disparities_run df out :
  analyze_demographic_disparities df out
  = (Ok PyNone, (out ++ disparities_report)%list).
Proof. rewrite (analyze_demographic_disparities_appends df out). reflexivity. Qed.

Lemma perform_correlation_analysis_run df out :
  perform_correlation_analysis df out
  = (Ok PyNone, (out ++ correlation_report)%list).
Proof. rewrite (perform_correlation_analysis_appends df out). reflexivity. Qed.

Lemma validate_data_quality_run out :
  validate_data_quality out = (Ok PyNone, (out ++ quality_report)%list).
Proof. rewrite (validate_data_quality_appends out). reflexivity. Qed.

Lemma export_to_json_run out :
  export_to_json out = (Ok PyNone, (out ++ export_report)%list).
Proof. rewrite (export_to_json_appends out). reflexivity. Qed.

Lemma main_returns today out : fst (main today out) = Ok PyNone.
Proof. rewrite (main_appends today out). reflexivity. Qed.

(** Two calls with the same observation cannot be told apart by any reader:
    no reader gives one number for the first and another for the second. *)
Lemma no_reader_tells_apart (o1 o2 : observation) (a b : Q) :
  o1 = o2 -> ~ a == b ->
  ~ exists read : observation -> Q, read o1 == a /\ read o2 == b.
Proof.
  intros Heq Hab [read [H1 H2]]. subst o2.
  apply Hab. rewrite <- H1, <- H2. reflexivity.
Qed.

(** ** The record predicate on examples *)

Example record_ok_in_range :
  record_ok (record 2024 "Alabama" (132 # 10) (381 # 10) (58 # 10) (347 # 10)
               5024279 "65+" "Hispanic" "$75,000 and above" 1800) = true.
Proof. reflexivity. Qed.

Example record_ok_rejects_percentage :
  record_ok (record 2024 "Alabama" 150 (381 # 10) (58 # 10) (347 # 10)
               5024279 "65+" "Hispanic" "$75,000 and above" 1800) = false.
Proof. reflexivity. Qed.

Example record_ok_rejects_population :
  record_ok (record 2024 "Alabama" (132 # 10) (381 # 10) (58 # 10) (347 # 10)
               0 "65+" "Hispanic" "$75,000 and above" 1800) = false.
Proof. reflexivity. Qed.

(** ** Step 2: the cleaner *)



(** C2: the cleaner is idempotent: applied to its own output it returns what
    one application returned. *)
Theorem cleaning_twice_is_cleaning_once :
  forall (df_raw : pyval) (out : list string),
    exists cleaned out1,
      clean_and_standardize_data df_raw out = (Ok cleaned, out1)
      /\ forall out2, fst (clean_and_standardize_data cleaned out2) = Ok cleaned.
Proof.
  intros df_raw out. exists PyNone, (out ++ cleaning_report)%list.
  split.
  - apply clean_and_standardize_data_run.
  - intros out2. now rewrite clean_and_standardize_data_run.
Qed.

(** ** Step 3: the state aggregation *)

(** C3, as stated, fails: on the one-record group of Alabama with value 10
    the aggregation returns [None], and what it returns and prints is what it
    returns and prints for the group with value 20, so no reading of the
    call gives the mean 10 for the first and 20 for the second. *)
Lemma aggregate_reports_no_mean :
  fst (aggregate_state_level_data (single_value_group "Alabama" 10) []) = Ok PyNone
  /\ aggregate_state_level_data (single_value_group "Alabama" 10) []
     = aggregate_state_level_data (single_value_group "Alabama" 20) []
  /\ ~ exists mean_of : observation -> Q,
         mean_of (aggregate_state_level_data (single_value_group "Alabama" 10) []) == 10
         /\ mean_of (aggregate_state_level_data (single_value_group "Alabama" 20) []) == 20.
Proof.
  split; [| split].
  - now rewrite aggregate_state_level_data_run.
  - now rewrite !aggregate_state_level_data_run.
  - apply no_reader_tells_apart.
    + now rewrite !aggregate_state_level_data_run.
    + intros H. discriminate H.
Qed.

(** C3, amended: for every input, a single state with a single value among
    them, [aggregate_state_level_data] computes no mean and no standard
    deviation: it returns [None] and prints one fixed report, whose ranges
    are literals of the script. *)
Theorem aggregate_state_level_data_fixed_report :
  forall (df_cleaned : pyval) (out : list string),
    aggregate_state_level_data df_cleaned out
    = (Ok PyNone, (out ++ aggregation_report)%list)
    /\ In "  - Diabetes prevalence range: 8.4% to 14.2%" aggregation_report.
Proof.
  intros df_cleaned out. split.
  - apply aggregate_state_level_data_run.
  - vm_compute. tauto.
Qed.

(** ** Step 4: the national trends *)

(** C4, as stated, fails: with equal populations the values 10 and 20 have
    the mean 15, and 10 and 30 the mean 20, but the call returns [None] and
    leaves the same observation for both data sets, so no national average
    can be read from it. *)
Lemma national_average_not_computed :
  fst (calculate_national_trends (equal_population_year 10 20) []) = Ok PyNone
  /\ calculate_national_trends (equal_population_year 10 20) []
     = calculate_national_trends (equal_population_year 10 30) []
  /\ ~ exists average_of : observation -> Q,
         average_of (calculate_national_trends (equal_population_year 10 20) []) == 15
         /\ average_of (calculate_national_trends (equal_population_year 10 30) []) == 20.
Proof.
  split; [| split].
  - now rewrite calculate_national_trends_run.
  - now rewrite !calculate_national_trends_run.
  - apply no_reader_tells_apart.
    + now rewrite !calculate_national_trends_run.
    + intros H. discriminate H.
Qed.

(** C4, amended: [calculate_national_trends] computes no population-weighted
    average: for every input it returns [None] and prints one fixed report,
    whose national figures are literals of the script. *)
Theorem calculate_national_trends_fixed_report :
  forall (df_cleaned : pyval) (out : list string),
    calculate_national_trends df_cleaned out
    = (Ok PyNone, (out ++ national_trends_report)%list)
    /\ In "    2015: 9.4% → 2024: 11.4% (+2.0 percentage points, +21.3% increase)"
         national_trends_report.
Proof.
  intros df_cleaned out. split.
  - apply calculate_national_trends_run.
  - vm_compute. tauto.
Qed.

(** C5, as stated, fails: for the series growing by 1/10 a year and the one
    growing by 1/5 a year the call leaves the same observation, so no CAGR
    within the tolerance of both rates can be read from it; the CAGR lines
    it prints are the same four for both. *)
Lemma cagr_not_computed :
  calculate_national_trends (growth_series (1 # 10)) []
  = calculate_national_trends (growth_series (1 # 5)) []
  /\ lines_with_prefix "    CAGR:"
       (snd (calculate_national_trends (growth_series (1 # 10)) []))
     = [ "    CAGR: 2.1%"; "    CAGR: 1.8%"; "    CAGR: 2.4%"; "    CAGR: 1.7%" ]
  /\ ~ exists cagr_of : observation -> Q,
         Qabs (cagr_of (calculate_national_trends (growth_series (1 # 10)) [])
               - (1 # 10)) <= tolerance
         /\ Qabs (cagr_of (calculate_national_trends (growth_series (1 # 5)) [])
                  - (1 # 5)) <= tolerance.
Proof.
  split; [| split].
  - now rewrite !calculate_national_trends_run.
  - now rewrite calculate_national_trends_run.
  - intros [cagr_of [H1 H2]].
    rewrite !calculate_national_trends_run in H1, H2.
    apply Qabs_Qle_condition in H1. apply Qabs_Qle_condition in H2.
    unfold tolerance in H1, H2.
    destruct H1 as [_ H1]. destruct H2 as [H2 _]. lra.
Qed.

(** C5, amended: [calculate_national_trends] computes no CAGR from its
    input: for every input (one with fewer than two years or a start that is
    not positive among them) it returns [None], and the CAGR lines of its
    report are the literals 2.1%, 1.8%, 2.4% and 1.7%. *)
Theorem cagr_lines_fixed :
  forall (df_cleaned : pyval),
    fst (calculate_national_trends df_cleaned []) = Ok PyNone
    /\ lines_with_prefix "    CAGR:" (snd (calculate_national_trends df_cleaned []))
       = [ "    CAGR: 2.1%"; "    CAGR: 1.8%"; "    CAGR: 2.4%"; "    CAGR: 1.7%" ].
Proof.
  intros df_cleaned. rewrite calculate_national_trends_run. split; reflexivity.
Qed.

(** C6, as stated, fails: from 10 to 11 the change is 10 percent and from 10
    to 12 it is 20 percent, but the call leaves the same observation for
    both series, so no year-over-year change can be read from it. *)
Lemma yoy_change_not_computed :
  fst (calculate_national_trends (two_year_series 10 11) []) = Ok PyNone
  /\ calculate_national_trends (two_year_series 10 11) []
     = calculate_national_trends (two_year_series 10 12) []
  /\ ~ exists change_of : observation -> Q,
         change_of (calculate_national_trends (two_year_series 10 11) [])
         == (11 - 10) / 10 * 100
         /\ change_of (calculate_national_trends (two_year_series 10 12) [])
            == (12 - 10) / 10 * 100.
Proof.
  split; [| split].
  - now rewrite calculate_national_trends_run.
  - now rewrite !calculate_national_trends_run.
  - apply no_reader_tells_apart.
    + now rewrite !calculate_national_trends_run.
    + intros H. discriminate H.
Qed.

(** C6, amended: [calculate_national_trends] computes no year-over-year
    change; for every input (a single year, or a previous value of 0, among
    them) it returns [None] and raises nothing, and two inputs leave the same
    observation. *)
Theorem calculate_national_trends_never_raises :
  forall (df1 df2 : pyval) (out : list string),
    fst (calculate_national_trends df1 out) = Ok PyNone
    /\ calculate_national_trends df1 out = calculate_national_trends df2 out.
Proof.
  intros df1 df2 out. rewrite !calculate_national_trends_run. split; reflexivity.
Qed.

(** ** Step 6: the correlation analysis *)

(** C7, as stated, fails: where the diabetes series is the obesity series
    itself the report gives r = 0.87 for the pair, not 1.0; and the call
    leaves the same observation where the diabetes series is the negation of
    the obesity series, so no reading of it gives 1 for the first and -1 for
    the second. *)
Lemma pearson_not_computed :
  fst (perform_correlation_analysis (paired_summaries (fun x => x)) []) = Ok PyNone
  /\ In "    - Obesity ↔ Diabetes:         r = 0.87 (strong positive)"
       (snd (perform_correlation_analysis (paired_summaries (fun x => x)) []))
  /\ perform_correlation_analysis (paired_summaries (fun x => x)) []
     = perform_correlation_analysis (paired_summaries Qopp) []
  /\ ~ exists r_of : observation -> Q,
         r_of (perform_correlation_analysis (paired_summaries (fun x => x)) []) == 1
         /\ r_of (perform_correlation_analysis (paired_summaries Qopp) []) == - (1).
Proof.
  split; [| split; [| split]].
  - now rewrite perform_correlation_analysis_run.
  - rewrite perform_correlation_analysis_run. vm_compute. tauto.
  - now rewrite !perform_correlation_analysis_run.
  - apply no_reader_tells_apart.
    + now rewrite !perform_correlation_analysis_run.
    + intros H. discriminate H.
Qed.

(** C7, amended: [perform_correlation_analysis] computes no correlation: for
    every input it returns [None] and prints one fixed report, whose five
    Pearson coefficients are the literals 0.87, 0.84, 0.82, 0.91 and 0.80. *)
Theorem perform_correlation_analysis_fixed_report :
  forall (df_cleaned : pyval) (out : list string),
    perform_correlation_analysis df_cleaned out
    = (Ok PyNone, (out ++ correlation_report)%list)
    /\ filter (occurs " r = ") correlation_report
       = [ "    - Obesity ↔ Diabetes:         r = 0.87 (strong positive)";
           "    - Obesity ↔ Heart Disease:   r = 0.84 (strong positive)";
           "    - Obesity ↔ Inactivity:      r = 0.82 (strong positive)";
           "    - Diabetes ↔ Heart Disease:  r = 0.91 (very strong positive)";
           "    - Inactivity ↔ Obesity:      r = 0.80 (strong positive)" ].
Proof.
  intros df_cleaned out. split.
  - apply perform_correlation_analysis_run.
  - reflexivity.
Qed.

(** ** Steps 7 and 8: the quality checks and the export *)

(** C8, as stated, fails: [validate_data_quality] and [export_to_json]
    return [None], and no entry of what a run prints, the export's schema
    among it, holds the word degraded: the run has no such flag. *)
Lemma degraded_flag_absent :
  fst (validate_data_quality []) = Ok PyNone
  /\ fst (export_to_json []) = Ok PyNone
  /\ existsb (occurs "degraded") (snd (main "2024-12-31" [])) = false
  /\ existsb (occurs "metadata") (snd (export_to_json [])) = false.
Proof. repeat split; vm_compute; reflexivity. Qed.

(** C8, amended: [validate_data_quality] takes no input and reads no
    rejection rate: on every call it returns [None] and reports its seven
    checks, each with the status PASS; neither its report nor the export's
    holds a degraded flag or a metadata block: the last thing
    [export_to_json] prints is the schema text, whose top-level keys are
    states, national_trends and demographic_breakdown; and the run [main]
    completes, returning [None], whatever the date and the standard output
    before it. *)
Theorem quality_gate_fixed_pass :
  forall (today : string) (out : list string),
    validate_data_quality out = (Ok PyNone, (out ++ quality_report)%list)
    /\ lines_with_prefix "  ✓ " quality_report
       = [ "  ✓ Completeness: PASS";
           "  ✓ Range Validation: PASS";
           "  ✓ Temporal Consistency: PASS";
           "  ✓ Geographic Coverage: PASS";
           "  ✓ Bounds Checking: PASS";
           "  ✓ Outlier Detection: PASS";
           "  ✓ Cross-validation: PASS" ]
    /\ lines_with_prefix "  ✗ " quality_report = []
    /\ export_to_json out = (Ok PyNone, (out ++ export_report)%list)
    /\ existsb (occurs "degraded") (quality_report ++ export_report) = false
    /\ existsb (occurs "metadata") (quality_report ++ export_report) = false
    /\ last export_report EmptyString = json_schema
    /\ top_level_key_lines json_schema
       = [ ("    " ++ quoted "states" ++ ": [")%string;
           ("    " ++ quoted "national_trends" ++ ": {")%string;
           ("    " ++ quoted "demographic_breakdown" ++ ": {")%string ]
    /\ fst (main today out) = Ok PyNone.
Proof.
  intros today out.
  split; [apply validate_data_quality_run |].
  split; [reflexivity |].
  split; [reflexivity |].
  split; [apply export_to_json_run |].
  split; [vm_compute; reflexivity |].
  split; [vm_compute; reflexivity |].
  split; [reflexivity |].
  split; [reflexivity |].
  apply main_returns.
Qed.

(** ** The stages and their input *)

(** C9: what a pipeline stage returns does not depend on its input: on any
    two inputs ([None] among them) [clean_and_standardize_data],
    [aggregate_state_level_data], [calculate_national_trends] and
    [perform_correlation_analysis] each return [None], and print the same. *)
Theorem stage_results_independent_of_input :
  forall (x y : pyval) (out : list string),
    (fst (clean_and_standardize_data x out) = Ok PyNone
     /\ clean_and_standardize_data x out = clean_and_standardize_data y out)
    /\ (fst (aggregate_state_level_data x out) = Ok PyNone
        /\ aggregate_state_level_data x out = aggregate_state_level_data y out)
    /\ (fst (calculate_national_trends x out) = Ok PyNone
        /\ calculate_national_trends x out = calculate_national_trends y out)
    /\ (fst (perform_correlation_analysis x out) = Ok PyNone
        /\ perform_correlation_analysis x out = perform_correlation_analysis y out).
Proof.
  intros x y out.
  rewrite !clean_and_standardize_data_run, !aggregate_state_level_data_run,
    !calculate_national_trends_run, !perform_correlation_analysis_run.
  repeat split.
Qed.

(** ** Step 1: the schema *)

(** C10: [load_raw_data] is a constant function: on every call it returns
    the same schema dictionary, whose "columns" list holds exactly the
    eleven field names; its keys are columns, expected_rows and
    data_sources, each with text under it, so it returns no data rows. *)
Theorem load_raw_data_constant_schema :
  forall (out : list string),
    fst (load_raw_data out) = Ok raw_data_schema
    /\ assoc "columns" (entries_of raw_data_schema)
       = Some (PyList (map PyStr
           [ "year"; "state"; "diabetes_percentage"; "obesity_percentage";
             "heart_disease_percentage"; "physical_inactivity_percentage";
             "population"; "age_group"; "race_ethnicity"; "income_level";
             "sample_size" ]))
    /\ map fst (entries_of raw_data_schema)
       = [ "columns"; "expected_rows"; "data_sources" ]
    /\ forallb is_text (map snd (entries_of raw_data_schema)) = true
    /\ records_of raw_data_schema = [].
Proof.
  intros out. rewrite load_raw_data_run. repeat split.
Qed.

(** ** Step 5: the demographic analysis *)

(** X1: what [analyze_demographic_disparities] returns and prints does not
    depend on its input: on any two inputs it returns [None], raises nothing
    and prints the same report. *)
Theorem analyze_demographic_disparities_ignores_input :
  forall (x y : pyval) (out : list string),
    fst (analyze_demographic_disparities x out) = Ok PyNone
    /\ analyze_demographic_disparities x out
       = analyze_demographic_disparities y out.
Proof.
  intros x y out. rewrite !analyze_demographic_disparities_run.
  split; reflexivity.
Qed.

(** ** The run *)

(** X2: [main] runs the nine steps in their order, each once, between the
    banner and the closing lines: whatever the date and the standard output
    before it, it returns [None] and adds to that output the banner, the
    report of each step in turn and the closing lines, touching nothing that
    was printed before. *)
Theorem main_runs_the_steps_in_order :
  forall (today : string) (out : list string),
    main today out
    = (Ok PyNone,
       (out ++ main_banner ++ schema_report ++ cleaning_report
        ++ aggregation_report ++ national_trends_report ++ disparities_report
        ++ correlation_report ++ quality_report ++ export_report
        ++ summary_report today ++ main_closing)%list).
Proof.
  intros today out. rewrite (main_appends today out). reflexivity.
Qed.

(** X3: the date enters the summary in one [print] call only: of the
    eighteen calls of [print_execution_summary] the sixteenth prints the
    label of the extraction date followed by the date it was given, and what
    the other seventeen print is the same for every date. *)
Theorem print_execution_summary_date_line :
  exists before after : list string,
    length before = 15%nat
    /\ length after = 2%nat
    /\ forall (today : string) (out : list string),
         print_execution_summary today out
         = (Ok PyNone,
            (out ++ before ++ [ ("  - Extraction date: " ++ today)%string ] ++ after)%list).
Proof.
  exists (firstn 15 (summary_report EmptyString)),
         (skipn 16 (summary_report EmptyString)).
  split; [reflexivity |]. split; [reflexivity |].
  intros today out.
  rewrite (print_execution_summary_appends today out). reflexivity.
Qed.

(** ** Step 7: the quality checks and their dictionary *)

(** X4: what [validate_data_quality] prints agrees with its dictionary of
    checks: after its title it prints two lines for each of the seven
    entries of [qa_checks], in the dictionary's order, the status line and
    the details line, and nothing else; every status is PASS, so every
    status line carries the check mark; the call returns [None]. *)
Theorem validate_data_quality_prints_its_checks :
  forall (out : list string),
    exists checks : list (string * string * string),
      entries_of qa_checks = map check_entry checks
      /\ length checks = 7%nat
      /\ map (fun check => snd (fst check)) checks = repeat "PASS" 7
      /\ validate_data_quality out
         = (Ok PyNone,
            (out
             ++ [ (nl ++ rule)%string;
                  "STEP 7: Data Validation & Quality Assurance";
                  rule;
                  (nl ++ "Quality Assurance Checks:")%string ]
             ++ flat_map check_lines checks)%list)
      /\ map (fun check => status_line (fst (fst check)) (snd (fst check))) checks
         = lines_with_prefix "  ✓ " (flat_map check_lines checks).
Proof.
  intros out.
  exists [ ("Completeness", "PASS",
            "100% of required fields populated for all 50 states");
           ("Range Validation", "PASS",
            "All percentages 0-100%, all populations > 0");
           ("Temporal Consistency", "PASS",
            "Trends align with CDC publications and epidemiological patterns");
           ("Geographic Coverage", "PASS", "All 50 states + DC accounted for");
           ("Bounds Checking", "PASS",
            "All state values within national min-max ranges");
           ("Outlier Detection", "PASS",
            "No extreme outliers detected; IQR validation applied");
           ("Cross-validation", "PASS",
            "Spot-checked against CDC BRFSS published data") ].
  rewrite validate_data_quality_run. repeat split.
Qed.

(** ** Step 1: the report and the returned schema *)

(** X7: what [load_raw_data] prints agrees with what it returns: after its
    title it prints one line for each name of the "columns" list of the
    dictionary it returns, in the list's order, then one line for each entry
    of its "data_sources" list, and nothing else; the "expected_rows" entry
    is returned and not printed. *)
Theorem load_raw_data_prints_what_it_returns :
  forall (out : list string),
    exists (schema : pyval) (columns data_sources : list string),
      load_raw_data out
      = (Ok schema,
         (out
          ++ [ rule; "STEP 1: Loading Raw Data"; rule;
               (nl ++ "Expected Raw Data Schema:")%string ]
          ++ map (fun col => ("  - " ++ col)%string) columns
          ++ [ (nl ++ "Data Sources:")%string ]
          ++ map (fun source => ("  - " ++ source)%string) data_sources)%list)
      /\ assoc "columns" (entries_of schema) = Some (PyList (map PyStr columns))
      /\ assoc "data_sources" (entries_of schema)
         = Some (PyList (map PyStr data_sources)).
Proof.
  intros out.
  exists raw_data_schema,
    [ "year"; "state"; "diabetes_percentage"; "obesity_percentage";
      "heart_disease_percentage"; "physical_inactivity_percentage";
      "population"; "age_group"; "race_ethnicity"; "income_level";
      "sample_size" ],
    [ "CDC BRFSS (https://www.cdc.gov/brfss/)";
      "CDC NHIS (https://www.cdc.gov/nchs/nhis/)";
      "U.S. Census Bureau (population estimates)" ].
  rewrite load_raw_data_run. repeat split.
Qed.
